(** * Scripts/export_coreml.py: the CoreML export script

    The script is two statements over the ultralytics library:

<<
    from ultralytics import YOLO

    model = YOLO("yolo26n.pt")
    model.export(format="coreml", imgsz=640)
>>

    The library is not part of the repository, so the development is
    parameterised by it: an interface ([Ultralytics]) gives the constructor
    and the export method as functions over the filesystem that either
    return or raise.  The module body is a program over that interface; a
    run interprets it against one library and one filesystem and records
    every call that crosses the interface. *)

From Stdlib Require Import ZArith String List.
From stdpp Require Import base option strings list gmap fin_maps.

Local Open Scope Z_scope.
Local Open Scope string_scope.

(** ** Python values and exceptions *)

(** A raised exception: its class and its message.  Only exceptions that
    derive from [Exception] are modelled, which is what a failing load or
    export raises. *)
Record exn : Type := { exn_class : string; exn_message : string }.

(** What a call does: it returns a value or it raises. *)
Inductive outcome (A : Type) : Type :=
| Returned (a : A)
| Raised (e : exn).
Arguments Returned {A} a.
Arguments Raised {A} e.

#[global] Instance outcome_fmap : FMap outcome := fun A B f r =>
  match r with
  | Returned a => Returned (f a)
  | Raised e => Raised e
  end.

(** The files on disk: path to contents. *)
Abbreviation filesystem := (gmap string string).

(** How the module comes to be executed.  [dunder_name] is [__name__]:
    ["__main__"] under [python3 Scripts/export_coreml.py], the module's own
    name under [import]. *)
Record invocation : Type := {
  dunder_name : string;
  argv : list string;
  environ : gmap string string;
  stdin : string;
}.

Section Embedding.

(** [handle] is what [YOLO(...)] evaluates to: the library's model object. *)
Context {handle : Type}.

(** The values the script passes, binds or receives. *)
Inductive pyobj : Type :=
| PyNone
| PyStr (s : string)
| PyInt (n : Z)
| PyModel (h : handle).

(** Keyword arguments, in the order the call site writes them. *)
Definition kwargs : Type := list (string * pyobj).

(** The value of keyword [k], as [kwargs.get(k)]. *)
Fixpoint kwarg (k : string) (kw : kwargs) : option pyobj :=
  match kw with
  | [] => None
  | (k', v) :: rest => if String.eqb k k' then Some v else kwarg k rest
  end.

(** The module's variables: the names its statements assign. *)
Abbreviation namespace := (gmap string pyobj).

(** ** The library interface

    [from ultralytics import YOLO] brings in the class; the script uses its
    constructor and its [export] method.  Either may read and write the
    filesystem, and either may raise: a call maps the filesystem it finds to
    the one it leaves, with its outcome. *)
Class Ultralytics : Type := {
  ultralytics_YOLO : string -> filesystem -> filesystem * outcome handle;
  ultralytics_export : handle -> kwargs -> filesystem -> filesystem * outcome pyobj;
}.

(** ** Programs over the library *)

(** A call across the interface, with its arguments. *)
Inductive call : Type :=
| YOLO_call (path : string)
| export_call (self : handle) (kw : kwargs).

(** A program: it is done, or it calls the library and continues with
    what the call returns. *)
Inductive py (A : Type) : Type :=
| Ret (a : A)
| Call_YOLO (path : string) (k : handle -> py A)
| Call_export (self : handle) (kw : kwargs) (k : pyobj -> py A).
Arguments Ret {A} a.
Arguments Call_YOLO {A} path k.
Arguments Call_export {A} self kw k.

Fixpoint py_bind {A B : Type} (f : A -> py B) (m : py A) : py B :=
  match m with
  | Ret a => f a
  | Call_YOLO path k => Call_YOLO path (fun h => py_bind f (k h))
  | Call_export self kw k => Call_export self kw (fun v => py_bind f (k v))
  end.

#[global] Instance py_ret : MRet py := fun A a => Ret a.
#[global] Instance py_mbind : MBind py := fun A B f m => py_bind f m.

(** [YOLO(path)] and [self.export] with keyword arguments [kw]. *)
Definition YOLO (path : string) : py handle := Call_YOLO path Ret.
Definition export (self : handle) (kw : kwargs) : py pyobj := Call_export self kw Ret.

(** ** The script *)

(** The module body, lines 18 to 21.  The import is the library parameter;
    [model] is bound once, the value of the export call is dropped, and the
    body ends with [model] as its only binding.  The invocation is at hand
    and never consulted. *)
Definition module_body (inv : invocation) : py namespace :=
  model ← YOLO "yolo26n.pt";
  export model [("format", PyStr "coreml"); ("imgsz", PyInt 640)];;
  mret (<["model" := PyModel model]> ∅).

(** The call site with its three literals abstracted (the Invoker of the
    design: a checkpoint path, a format name, an image size). *)
Definition invoker (checkpoint format : string) (imgsz : Z) : py namespace :=
  model ← YOLO checkpoint;
  export model [("format", PyStr format); ("imgsz", PyInt imgsz)];;
  mret (<["model" := PyModel model]> ∅).

(** ** Running a program *)

(** One entry of the log: a call and how the library answered it. *)
Definition event : Type := call * outcome pyobj.

Record run (A : Type) : Type := {
  trace : list event;
  fs_after : filesystem;
  result : outcome A;
}.
Arguments trace {A} r.
Arguments fs_after {A} r.
Arguments result {A} r.

Definition logged {A : Type} (ev : event) (r : run A) : run A :=
  {| trace := ev :: trace r; fs_after := fs_after r; result := result r |}.

(** The script has no [try]: an exception raised by a call ends the run
    there, with the filesystem as the call left it. *)
Definition uncaught {A : Type} (ev : event) (fs : filesystem) (e : exn) : run A :=
  {| trace := [ev]; fs_after := fs; result := Raised e |}.

Context `{lib : Ultralytics}.

Fixpoint exec {A : Type} (m : py A) (fs : filesystem) : run A :=
  match m with
  | Ret a => {| trace := []; fs_after := fs; result := Returned a |}
  | Call_YOLO path k =>
      match ultralytics_YOLO path fs with
      | (fs', Returned h) => logged (YOLO_call path, Returned (PyModel h)) (exec (k h) fs')
      | (fs', Raised e) => uncaught (YOLO_call path, Raised e) fs' e
      end
  | Call_export self kw k =>
      match ultralytics_export self kw fs with
      | (fs', Returned v) => logged (export_call self kw, Returned v) (exec (k v) fs')
      | (fs', Raised e) => uncaught (export_call self kw, Raised e) fs' e
      end
  end.

(** Executing the module, as a script or under import. *)
Definition run_module (inv : invocation) (fs : filesystem) : run namespace :=
  exec (module_body inv) fs.

(** The calls of a run, in order, without the answers. *)
Definition calls {A : Type} (r : run A) : list call := (trace r).*1.

Definition failed {A : Type} (r : run A) : bool :=
  match result r with
  | Returned _ => false
  | Raised _ => true
  end.

(** The interpreter's exit status: 0 when the body runs to its end, 1 when
    an exception reaches the top level. *)
Definition exit_status {A : Type} (r : run A) : Z :=
  if failed r then 1 else 0.

(** The argument values a call hands to the library, receiver apart. *)
Definition values_passed (c : call) : list pyobj :=
  match c with
  | YOLO_call path => [PyStr path]
  | export_call _ kw => kw.*2
  end.

(** The data model's two invariants on an export configuration: the format
    string is not empty and the image size is positive. *)
Definition export_invariants (kw : kwargs) : bool :=
  match kwarg "format" kw, kwarg "imgsz" kw with
  | Some (PyStr s), Some (PyInt n) => negb (String.eqb s "") && (0 <? n)%Z
  | _, _ => false
  end.

(** ** What a library may or may not guarantee

    Nothing below is assumed of the library; these are the properties that
    the statements about atomicity and idempotence name. *)

(** Constructing a model writes nothing. *)
Definition load_writes_nothing : Prop :=
  forall path fs, (ultralytics_YOLO path fs).1 = fs.

(** An export that raises leaves the filesystem as it found it. *)
Definition export_atomic : Prop :=
  forall self kw fs e,
    (ultralytics_export self kw fs).2 = Raised e ->
    (ultralytics_export self kw fs).1 = fs.

(** The export pipeline is a function of its inputs.  The model that is
    loaded depends on the checkpoint file alone, and loading writes
    nothing; what an export writes and what it answers depend on the model
    and the keyword arguments alone, the files it writes replacing what was
    at their paths. *)
Record deterministic_export : Prop := {
  load_of_checkpoint : forall path (fs fs' : filesystem),
    fs !! path = fs' !! path ->
    (ultralytics_YOLO path fs).2 = (ultralytics_YOLO path fs').2;
  load_pure : load_writes_nothing;
  export_of_inputs : forall self kw, exists (written : filesystem) answer,
    forall fs, ultralytics_export self kw fs = (written ∪ fs, answer);
}.

End Embedding.

Arguments pyobj handle : clear implicits.
Arguments kwargs handle : clear implicits.
Arguments call handle : clear implicits.
Arguments py handle A : clear implicits.
Arguments event handle : clear implicits.
Arguments run handle A : clear implicits.
Arguments Ultralytics handle : clear implicits.
Arguments Ret {handle A} a.
Arguments Call_YOLO {handle A} path k.
Arguments Call_export {handle A} self kw k.
Arguments trace {handle A} r.
Arguments fs_after {handle A} r.
Arguments result {handle A} r.
Arguments load_writes_nothing {handle} lib.
Arguments export_atomic {handle} lib.
Arguments deterministic_export {handle} lib.

(** The same invocation with the module run as the main script. *)
Definition as_script (inv : invocation) : invocation :=
  {| dunder_name := "__main__"; argv := argv inv;
     environ := environ inv; stdin := stdin inv |}.

(** ** Sample libraries, invocations and directories

    Stand-ins for the library to run the script against.  In each a model is
    the contents of its checkpoint file. *)

Definition FileNotFoundError (path : string) : exn :=
  {| exn_class := "FileNotFoundError"; exn_message := path |}.
Definition ValueError (msg : string) : exn :=
  {| exn_class := "ValueError"; exn_message := msg |}.
Definition RuntimeError (msg : string) : exn :=
  {| exn_class := "RuntimeError"; exn_message := msg |}.

Definition load_checkpoint (path : string) (fs : filesystem)
  : filesystem * outcome string :=
  match fs !! path with
  | Some weights => (fs, Returned weights)
  | None => (fs, Raised (FileNotFoundError path))
  end.

(** A library that loads the checkpoint if it is there, knows the format
    ["coreml"] only, and writes the package in one step. *)
Definition tidy_lib : Ultralytics string := {|
  ultralytics_YOLO := load_checkpoint;
  ultralytics_export self kw fs :=
    match kwarg "format" kw with
    | Some (PyStr fmt) =>
        if String.eqb fmt "coreml"
        then (<["yolo26n.mlpackage" := "coreml:" +:+ self]> fs,
              Returned (PyStr "yolo26n.mlpackage"))
        else (fs, Raised (ValueError fmt))
    | _ => (fs, Raised (ValueError "format"))
    end;
|}.

(** A library whose conversion breaks after the package has been started:
    the export writes a partial package and then raises. *)
Definition leaky_lib : Ultralytics string := {|
  ultralytics_YOLO := load_checkpoint;
  ultralytics_export self kw fs :=
    (<["yolo26n.mlpackage" := "partial"]> fs, Raised (RuntimeError "conversion"));
|}.

(** A library that loads the checkpoint and has no CoreML exporter: export
    refuses the format before it writes anything. *)
Definition no_coreml_lib : Ultralytics string := {|
  ultralytics_YOLO := load_checkpoint;
  ultralytics_export self kw fs := (fs, Raised (ValueError "coreml"));
|}.

(** A library like [tidy_lib] whose export answers [None] and not the path
    of the package it wrote. *)
Definition mute_lib : Ultralytics string := {|
  ultralytics_YOLO := load_checkpoint;
  ultralytics_export self kw fs :=
    match kwarg "format" kw with
    | Some (PyStr fmt) =>
        if String.eqb fmt "coreml"
        then (<["yolo26n.mlpackage" := "coreml:" +:+ self]> fs, Returned PyNone)
        else (fs, Raised (ValueError fmt))
    | _ => (fs, Raised (ValueError "format"))
    end;
|}.

(** [python3 Scripts/export_coreml.py], and an import from another program
    that has arguments, an environment and input of its own. *)
Definition from_command_line : invocation :=
  {| dunder_name := "__main__"; argv := ["Scripts/export_coreml.py"];
     environ := ∅; stdin := "" |}.

Definition imported : invocation :=
  {| dunder_name := "export_coreml"; argv := ["app.py"; "--fast"];
     environ := {["HOME" := "/root"]}; stdin := "y" |}.

(** A working directory that holds the checkpoint, and an empty one. *)
Definition with_checkpoint : filesystem := {["yolo26n.pt" := "weights"]}.
Definition empty_dir : filesystem := ∅.

(** The runs the statements below are tried on. *)
Definition tidy_run := run_module (lib := tidy_lib) from_command_line with_checkpoint.
Definition missing_run := run_module (lib := tidy_lib) from_command_line empty_dir.
Definition refused_run := run_module (lib := no_coreml_lib) from_command_line with_checkpoint.
Definition leaky_run := run_module (lib := leaky_lib) from_command_line with_checkpoint.
Definition import_run := run_module (lib := tidy_lib) imported with_checkpoint.

(** * Properties *)

Section Properties.

Context {handle : Type} {lib : Ultralytics handle}.

Abbreviation namespace := (gmap string (pyobj handle)).

(** The keyword arguments of the export call, as the source writes them. *)
Abbreviation coreml_640 :=
  [("format", PyStr "coreml"); ("imgsz", PyInt 640)].

(** ** The interpreter

    No program of [py] can catch: whatever the program, a call that raises
    is the last entry of the log and its exception is the run's result. *)

Lemma exec_raised_last {A : Type} (m : py handle A) (fs : filesystem) c e :
  (c, Raised e) ∈ trace (exec m fs) ->
  last (trace (exec m fs)) = Some (c, Raised e) /\ result (exec m fs) = Raised e.
Proof.
  revert fs. induction m as [a | path k IH | self kw k IH]; intros fs; simpl.
  - intros Hin. by apply elem_of_nil in Hin.
  - destruct (ultralytics_YOLO path fs) as [fs' [h | e']]; simpl.
    + rewrite elem_of_cons. intros [Heq | Hin]; [discriminate Heq |].
      destruct (IH h fs' Hin) as [Hlast Hres]. split; [| exact Hres].
      rewrite last_cons, Hlast. reflexivity.
    + rewrite list_elem_of_singleton. intros Heq. by inversion Heq.
  - destruct (ultralytics_export self kw fs) as [fs' [v | e']]; simpl.
    + rewrite elem_of_cons. intros [Heq | Hin]; [discriminate Heq |].
      destruct (IH v fs' Hin) as [Hlast Hres]. split; [| exact Hres].
      rewrite last_cons, Hlast. reflexivity.
    + rewrite list_elem_of_singleton. intros Heq. by inversion Heq.
Qed.

(** Conversely a run only fails on an exception that a call raised. *)
Lemma exec_failure_from_library {A : Type} (m : py handle A) (fs : filesystem) e :
  result (exec m fs) = Raised e -> exists c, (c, Raised e) ∈ trace (exec m fs).
Proof.
  revert fs. induction m as [a | path k IH | self kw k IH]; intros fs; simpl.
  - discriminate.
  - destruct (ultralytics_YOLO path fs) as [fs' [h | e']]; simpl.
    + intros Hres. destruct (IH h fs' Hres) as [c Hc].
      exists c. by apply elem_of_cons; right.
    + intros [= ->]. exists (YOLO_call path). by apply list_elem_of_singleton.
  - destruct (ultralytics_export self kw fs) as [fs' [v | e']]; simpl.
    + intros Hres. destruct (IH v fs' Hres) as [c Hc].
      exists c. by apply elem_of_cons; right.
    + intros [= ->]. exists (export_call self kw). by apply list_elem_of_singleton.
Qed.

(** ** The call site *)

(** The two shapes a run of the call site can take. *)
Lemma exec_invoker (checkpoint format : string) (imgsz : Z) (fs : filesystem) :
  exec (invoker checkpoint format imgsz) fs =
  match ultralytics_YOLO checkpoint fs with
  | (fs1, Returned h) =>
      let kw := [("format", PyStr format); ("imgsz", PyInt imgsz)] in
      {| trace := [(YOLO_call checkpoint, Returned (PyModel h));
                   (export_call h kw, (ultralytics_export h kw fs1).2)];
         fs_after := (ultralytics_export h kw fs1).1;
         result := (fun _ => <["model" := PyModel h]> ∅)
                     <$> (ultralytics_export h kw fs1).2 |}
  | (fs1, Raised e) =>
      {| trace := [(YOLO_call checkpoint, Raised e)];
         fs_after := fs1; result := Raised e |}
  end.
Proof.
  unfold invoker. simpl.
  destruct (ultralytics_YOLO checkpoint fs) as [fs1 [h | e]]; simpl; [| reflexivity].
  destruct (ultralytics_export h _ fs1) as [fs2 [v | e]]; reflexivity.
Qed.

Lemma module_body_invoker (inv : invocation) :
  module_body (handle := handle) inv = invoker "yolo26n.pt" "coreml" 640.
Proof. reflexivity. Qed.

Lemma run_module_unfold (inv : invocation) (fs : filesystem) :
  run_module inv fs = exec (invoker "yolo26n.pt" "coreml" 640) fs.
Proof. reflexivity. Qed.

(** C1: the module body is two operations in sequence and nothing else:
    the construction of the model from the checkpoint path, then [export] on
    the handle that came back, with exactly the two keyword arguments
    [format] and [imgsz]; the body has no loop and no branch.  Accordingly a
    run takes one of two shapes.  The first call is always the constructor;
    if it raises, the run ends there.  If it returns a handle, the second
    and last call is [export] on that very handle; the value export returns
    is dropped (the run's result is export's outcome with its value replaced
    by the namespace), and [model] is still bound to the handle the
    constructor returned.  No run makes any other call. *)
Theorem module_body_two_calls_in_order (inv : invocation) (fs : filesystem) :
  let r := run_module inv fs in
  module_body inv
  = Call_YOLO "yolo26n.pt" (fun model : handle =>
      Call_export model coreml_640 (fun _ =>
        Ret (<["model" := PyModel model]> ∅)))
  /\ ((exists e,
         trace r = [(YOLO_call "yolo26n.pt", Raised e)] /\ result r = Raised e)
      \/ (exists h answer,
         trace r = [(YOLO_call "yolo26n.pt", Returned (PyModel h));
                    (export_call h coreml_640, answer)]
         /\ result r
            = (fun _ : pyobj handle => <["model" := PyModel h]> ∅) <$> answer)).
Proof.
  intros r. split; [reflexivity |].
  subst r. rewrite run_module_unfold, exec_invoker.
  destruct (ultralytics_YOLO "yolo26n.pt" fs) as [fs1 [h | e]].
  - right. exists h, (ultralytics_export h coreml_640 fs1).2. split; reflexivity.
  - left. exists e. split; reflexivity.
Qed.

(** C2: an exception that the library raises, in the constructor or in
    export, is the exception the run ends with (it is neither caught nor
    replaced by another), the call that raised it is the last thing the run
    does (nothing is retried, nothing runs after it), and the exit status is
    not zero.  A run in which no call raises exits with status 0. *)
Theorem library_failure_propagates (inv : invocation) (fs : filesystem) :
  let r := run_module inv fs in
  (forall c e, (c, Raised e) ∈ trace r ->
     result r = Raised e /\ last (trace r) = Some (c, Raised e) /\ exit_status r <> 0)
  /\ ((forall c e, (c, Raised e) ∉ trace r) -> exit_status r = 0).
Proof.
  intros r. subst r. unfold run_module, exit_status, failed. split.
  - intros c e Hin.
    destruct (exec_raised_last _ _ _ _ Hin) as [Hlast Hres].
    rewrite Hres. repeat split; [exact Hlast | discriminate].
  - intros Hnone.
    destruct (result (exec (module_body inv) fs)) as [ns | e] eqn:Hres; [reflexivity |].
    destruct (exec_failure_from_library _ _ _ Hres) as [c Hc].
    by destruct (Hnone c e).
Qed.



(** C5: if the export pipeline is a function of its inputs, running the
    module a second time on what the first run left, with the checkpoint
    file still the same, changes nothing: the filesystem after the second
    run is the filesystem after the first (the artifact included), and the
    second run makes the same calls, gets the same answers and ends the
    same way. *)
Theorem rerun_is_idempotent (inv : invocation) (fs : filesystem) :
  deterministic_export lib ->
  let r1 := run_module inv fs in
  let r2 := run_module inv (fs_after r1) in
  fs_after r1 !! "yolo26n.pt" = fs !! "yolo26n.pt" ->
  fs_after r2 = fs_after r1 /\ trace r2 = trace r1 /\ result r2 = result r1.
Proof.
  intros [Hckpt Hpure Hexport] r1 r2. subst r1 r2.
  rewrite !run_module_unfold, !exec_invoker.
  pose proof (Hpure "yolo26n.pt" fs) as Hfs.
  destruct (ultralytics_YOLO "yolo26n.pt" fs) as [fs1 [h | e]] eqn:Hload;
    simpl in Hfs; subst fs1; simpl.
  - destruct (Hexport h coreml_640) as (written & answer & Hwrite).
    rewrite !Hwrite. simpl. intros Hsame.
    pose proof (Hpure "yolo26n.pt" (written ∪ fs)) as Hfs'.
    pose proof (Hckpt "yolo26n.pt" _ _ Hsame) as Hmodel.
    rewrite Hload in Hmodel.
    destruct (ultralytics_YOLO "yolo26n.pt" (written ∪ fs)) as [fs2 res].
    simpl in *. subst fs2 res. rewrite !Hwrite. simpl.
    by rewrite (assoc_L (∪)), (idemp_L (∪)).
  - intros _. by rewrite Hload.
Qed.

(** C6: the call site checks nothing, whatever its three parameters are.
    The checkpoint path goes to the constructor as it is; when the
    constructor returns, the format and the image size go to export as they
    are; and the run fails with an exception exactly when a library call
    raised that exception.  The module is the call site at its literals. *)
Theorem invoker_validates_nothing
    (checkpoint format : string) (imgsz : Z) (fs : filesystem) :
  let r := exec (invoker checkpoint format imgsz) fs in
  calls r !! 0%nat = Some (YOLO_call checkpoint)
  /\ (forall h, (YOLO_call checkpoint, Returned (PyModel h)) ∈ trace r ->
        calls r !! 1%nat
        = Some (export_call h [("format", PyStr format); ("imgsz", PyInt imgsz)]))
  /\ (forall e, result r = Raised e <-> exists c, (c, Raised e) ∈ trace r)
  /\ (forall inv, run_module inv fs = exec (invoker "yolo26n.pt" "coreml" 640) fs).
Proof.
  intros r. split; [| split; [| split]].
  - subst r. rewrite exec_invoker.
    by destruct (ultralytics_YOLO checkpoint fs) as [fs1 [h | e]].
  - intros h. subst r. rewrite exec_invoker.
    destruct (ultralytics_YOLO checkpoint fs) as [fs1 [h' | e]]; unfold calls; simpl.
    + rewrite elem_of_cons. intros [[= ->] | Hin]; [reflexivity |].
      apply list_elem_of_singleton in Hin. discriminate Hin.
    + rewrite list_elem_of_singleton. discriminate.
  - intros e. split; [apply exec_failure_from_library |].
    intros [c Hin]. by destruct (exec_raised_last _ _ _ _ Hin).
  - intros inv. apply run_module_unfold.
Qed.


(** C8: the values that reach the library are the three literals of the
    source and nothing else.  Every call of a run is the constructor on
    ["yolo26n.pt"] or export with [format="coreml"] and [imgsz=640]; the
    first call is the constructor; and whenever the constructor returns, the
    values passed are exactly the path, the format and the image size. *)
Theorem hard_coded_values (inv : invocation) (fs : filesystem) :
  let r := run_module inv fs in
  let passed := concat (values_passed <$> calls r) in
  (forall c, c ∈ calls r ->
     c = YOLO_call "yolo26n.pt" \/ exists h, c = export_call h coreml_640)
  /\ calls r !! 0%nat = Some (YOLO_call "yolo26n.pt")
  /\ (passed = [PyStr "yolo26n.pt"]
      \/ passed = [PyStr "yolo26n.pt"; PyStr "coreml"; PyInt 640])
  /\ (forall h, (YOLO_call "yolo26n.pt", Returned (PyModel h)) ∈ trace r ->
        passed = [PyStr "yolo26n.pt"; PyStr "coreml"; PyInt 640]).
Proof.
  intros r passed. subst passed r. rewrite run_module_unfold, exec_invoker.
  destruct (ultralytics_YOLO "yolo26n.pt" fs) as [fs1 [h | e]]; unfold calls; simpl.
  - split; [| split; [reflexivity | split; [by right | reflexivity]]].
    intros c. rewrite elem_of_cons, list_elem_of_singleton.
    intros [-> | ->]; [by left | right; by exists h].
  - split; [| split; [reflexivity | split; [by left |]]].
    + intros c. rewrite list_elem_of_singleton. intros ->. by left.
    + intros h. rewrite list_elem_of_singleton. discriminate.
Qed.

(** C9: the body is not guarded by a test of [__name__].  Executed under
    any other name than ["__main__"], that is under import, the module runs
    exactly as the script does: it constructs the model, and when the
    constructor returns it calls export, whose write is what the run leaves
    on disk. *)
Theorem import_runs_the_export (inv : invocation) (fs : filesystem) :
  dunder_name inv <> "__main__" ->
  let r := run_module inv fs in
  r = run_module (as_script inv) fs
  /\ calls r !! 0%nat = Some (YOLO_call "yolo26n.pt")
  /\ (forall fs1 h, ultralytics_YOLO "yolo26n.pt" fs = (fs1, Returned h) ->
        calls r !! 1%nat = Some (export_call h coreml_640)
        /\ fs_after r = (ultralytics_export h coreml_640 fs1).1).
Proof.
  intros _ r. subst r. rewrite !run_module_unfold, exec_invoker.
  split; [reflexivity |]. split.
  - by destruct (ultralytics_YOLO "yolo26n.pt" fs) as [fs1 [h | e]].
  - intros fs1 h ->. split; reflexivity.
Qed.

(** C10: every export call a run makes satisfies the data model's
    invariants, although nothing checks them: its format is the non-empty
    string ["coreml"] and its image size is the positive integer 640. *)
Theorem export_arguments_well_formed
    (inv : invocation) (fs : filesystem) (h : handle) (kw : kwargs handle) :
  export_call h kw ∈ calls (run_module inv fs) ->
  export_invariants kw = true
  /\ kwarg "format" kw = Some (PyStr "coreml")
  /\ kwarg "imgsz" kw = Some (PyInt 640).
Proof.
  rewrite run_module_unfold, exec_invoker.
  destruct (ultralytics_YOLO "yolo26n.pt" fs) as [fs1 [h' | e]]; unfold calls; simpl.
  - rewrite elem_of_cons, list_elem_of_singleton.
    intros [Heq | Heq]; [discriminate Heq |].
    injection Heq as -> ->. split; [reflexivity |]. split; reflexivity.
  - rewrite list_elem_of_singleton. discriminate.
Qed.

End Properties.

(** * The script on the sample libraries *)

Example tidy_run_trace :
  trace tidy_run =
    [(YOLO_call "yolo26n.pt", Returned (PyModel "weights"));
     (export_call "weights" [("format", PyStr "coreml"); ("imgsz", PyInt 640)],
      Returned (PyStr "yolo26n.mlpackage"))].
Proof. reflexivity. Qed.

Example tidy_run_artifact :
  fs_after tidy_run !! "yolo26n.mlpackage" = Some "coreml:weights"
  /\ result tidy_run = Returned {["model" := PyModel "weights"]}
  /\ exit_status tidy_run = 0.
Proof. split; [| split]; reflexivity. Qed.

Example missing_run_trace :
  trace missing_run
  = [(YOLO_call "yolo26n.pt", Raised (FileNotFoundError "yolo26n.pt"))]
  /\ exit_status missing_run = 1.
Proof. split; reflexivity. Qed.

Lemma load_checkpoint_writes_nothing path (fs : filesystem) :
  (load_checkpoint path fs).1 = fs.
Proof. unfold load_checkpoint. by destruct (fs !! path). Qed.

Lemma load_checkpoint_of_file path (fs fs' : filesystem) :
  fs !! path = fs' !! path -> (load_checkpoint path fs).2 = (load_checkpoint path fs').2.
Proof. unfold load_checkpoint. intros <-. by destruct (fs !! path). Qed.

Lemma no_coreml_lib_atomic :
  load_writes_nothing no_coreml_lib /\ export_atomic no_coreml_lib.
Proof.
  split.
  - intros path fs. apply load_checkpoint_writes_nothing.
  - intros self kw fs e _. reflexivity.
Qed.

Lemma tidy_lib_deterministic : deterministic_export tidy_lib.
Proof.
  split.
  - intros path fs fs'. apply load_checkpoint_of_file.
  - intros path fs. apply load_checkpoint_writes_nothing.
  - intros self kw. simpl.
    destruct (kwarg "format" kw) as [[| fmt | n | h] |];
      try (exists ∅, (Raised (ValueError "format")); intros fs;
           by rewrite (left_id_L ∅ (∪))).
    destruct (String.eqb fmt "coreml").
    + exists {["yolo26n.mlpackage" := "coreml:" +:+ self]},
        (Returned (PyStr "yolo26n.mlpackage")).
      intros fs. by rewrite insert_union_singleton_l.
    + exists ∅, (Raised (ValueError fmt)). intros fs.
      by rewrite (left_id_L ∅ (∪)).
Qed.

(** On the library without a CoreML exporter the constructor returns and
    export raises: the exception reaches the top level as it is. *)
Lemma library_failure_propagates_witness :
  result refused_run = Raised (ValueError "coreml")
  /\ last (trace refused_run)
     = Some (export_call "weights" [("format", PyStr "coreml"); ("imgsz", PyInt 640)],
             Raised (ValueError "coreml"))
  /\ exit_status refused_run <> 0.
Proof.
  apply (proj1 (library_failure_propagates (lib := no_coreml_lib) from_command_line with_checkpoint)).
  vm_compute. apply list_elem_of_further, list_elem_of_here.
Defined.



(** A second run of the script on what the first run left. *)
Lemma rerun_is_idempotent_witness :
  fs_after (run_module (lib := tidy_lib) from_command_line (fs_after tidy_run)) = fs_after tidy_run
  /\ trace (run_module (lib := tidy_lib) from_command_line (fs_after tidy_run)) = trace tidy_run
  /\ result (run_module (lib := tidy_lib) from_command_line (fs_after tidy_run)) = result tidy_run.
Proof.
  apply (rerun_is_idempotent (lib := tidy_lib) from_command_line with_checkpoint
           tidy_lib_deterministic).
  reflexivity.
Defined.

(** An empty path, an empty format and a negative size reach the library
    unchecked. *)
Lemma invoker_validates_nothing_witness :
  calls (exec (lib := leaky_lib) (invoker "" "" (-1)) {["" := "w"]}) !! 1%nat
  = Some (export_call "w" [("format", PyStr ""); ("imgsz", PyInt (-1))]).
Proof.
  apply (invoker_validates_nothing (lib := leaky_lib) "" "" (-1) {["" := "w"]}).
  vm_compute. apply list_elem_of_here.
Defined.

(** Importing the module from a program with arguments, an environment and
    input of its own exports the model. *)
Lemma import_runs_the_export_witness :
  import_run = run_module (lib := tidy_lib) (as_script imported) with_checkpoint
  /\ calls import_run !! 0%nat = Some (YOLO_call "yolo26n.pt")
  /\ calls import_run !! 1%nat
     = Some (export_call "weights" [("format", PyStr "coreml"); ("imgsz", PyInt 640)])
  /\ fs_after import_run
     = (ultralytics_export (Ultralytics := tidy_lib) "weights"
          [("format", PyStr "coreml"); ("imgsz", PyInt 640)] with_checkpoint).1.
Proof.
  assert (dunder_name imported <> "__main__") as Hname by discriminate.
  destruct (import_runs_the_export (lib := tidy_lib) imported with_checkpoint Hname)
    as (Hsame & Hfirst & Hexport).
  split; [exact Hsame |]. split; [exact Hfirst |].
  exact (Hexport with_checkpoint "weights" eq_refl).
Defined.

(** The export call of the sample run. *)
Lemma export_arguments_well_formed_witness :
  export_invariants (handle := string)
    [("format", PyStr "coreml"); ("imgsz", PyInt 640)] = true
  /\ kwarg (handle := string) "format"
       [("format", PyStr "coreml"); ("imgsz", PyInt 640)] = Some (PyStr "coreml")
  /\ kwarg (handle := string) "imgsz"
       [("format", PyStr "coreml"); ("imgsz", PyInt 640)] = Some (PyInt 640).
Proof.
  apply (export_arguments_well_formed (lib := tidy_lib) from_command_line with_checkpoint "weights").
  vm_compute. apply list_elem_of_further, list_elem_of_here.
Defined.

(** * Further properties of the module body *)

Section Frame.

Context {handle : Type} {lib : Ultralytics handle}.

(** X1: the script changes nothing on disk by itself.  Any property of the
    filesystem that the constructor call on ["yolo26n.pt"] and the export
    call with [format="coreml"], [imgsz=640] both preserve still holds
    after the run, however the run ends. *)
Theorem run_module_keeps_library_invariants
    (P : filesystem -> Prop) (inv : invocation) (fs : filesystem) :
  (forall fs0, P fs0 -> P (ultralytics_YOLO "yolo26n.pt" fs0).1) ->
  (forall (h : handle) fs0, P fs0 ->
     P (ultralytics_export h [("format", PyStr "coreml"); ("imgsz", PyInt 640)] fs0).1) ->
  P fs -> P (fs_after (run_module inv fs)).
Proof.
  intros Hload Hexport Hfs.
  rewrite run_module_unfold, exec_invoker.
  specialize (Hload fs Hfs).
  destruct (ultralytics_YOLO "yolo26n.pt" fs) as [fs1 [h | e]]; simpl in *.
  - by apply Hexport.
  - exact Hload.
Qed.

(** X3: the run exits with status 0 exactly when the constructor returns a
    handle and the export on that handle, over the filesystem the
    constructor left, returns as well. *)
Theorem run_module_succeeds_iff (inv : invocation) (fs : filesystem) :
  exit_status (run_module inv fs) = 0
  <-> exists fs1 (h : handle) v,
        ultralytics_YOLO "yolo26n.pt" fs = (fs1, Returned h)
        /\ (ultralytics_export h [("format", PyStr "coreml"); ("imgsz", PyInt 640)] fs1).2
           = Returned v.
Proof.
  rewrite run_module_unfold, exec_invoker. unfold exit_status, failed.
  destruct (ultralytics_YOLO "yolo26n.pt" fs) as [fs1 [h | e]]; simpl.
  - destruct (ultralytics_export h _ fs1).2 as [v | e] eqn:Hexport; simpl.
    + split; [| reflexivity]. intros _. exists fs1, h, v. by rewrite Hexport.
    + split; [discriminate |].
      intros (fs1' & h' & v & [= <- <-] & Hv). rewrite Hexport in Hv. discriminate Hv.
  - split; [discriminate |]. intros (fs1' & h' & v & Hload & _). discriminate Hload.
Qed.

End Frame.

Section TwoLibraries.

Context {handle : Type} (lib1 lib2 : Ultralytics handle).

(** X2: the run depends on the library through its two calls only, and not
    on the value export returns.  If two libraries answer the constructor
    call on ["yolo26n.pt"] alike, and their exports with [format="coreml"],
    [imgsz=640] leave the same filesystem and both return or raise the same
    exception, whatever value each returns, then the two runs make the same
    calls, leave the same filesystem, and end with the same result and exit
    status. *)
Theorem run_module_ignores_export_value (inv : invocation) (fs : filesystem) :
  ultralytics_YOLO (Ultralytics := lib1) "yolo26n.pt" fs
  = ultralytics_YOLO (Ultralytics := lib2) "yolo26n.pt" fs ->
  (forall fs1 h,
     ultralytics_YOLO (Ultralytics := lib1) "yolo26n.pt" fs = (fs1, Returned h) ->
     let kw := [("format", PyStr "coreml"); ("imgsz", PyInt 640)] in
     (ultralytics_export (Ultralytics := lib1) h kw fs1).1
     = (ultralytics_export (Ultralytics := lib2) h kw fs1).1
     /\ (fun _ => ()) <$> (ultralytics_export (Ultralytics := lib1) h kw fs1).2
        = (fun _ => ()) <$> (ultralytics_export (Ultralytics := lib2) h kw fs1).2) ->
  let r1 := run_module (lib := lib1) inv fs in
  let r2 := run_module (lib := lib2) inv fs in
  calls r1 = calls r2 /\ fs_after r1 = fs_after r2
  /\ result r1 = result r2 /\ exit_status r1 = exit_status r2.
Proof.
  intros Hload Hexport r1 r2. subst r1 r2.
  rewrite !run_module_unfold, !exec_invoker. rewrite <- Hload.
  destruct (ultralytics_YOLO (Ultralytics := lib1) "yolo26n.pt" fs)
    as [fs1 [h | e]]; [| done].
  destruct (Hexport fs1 h eq_refl) as [Hfs Hanswer]. simpl in Hfs, Hanswer.
  unfold calls, exit_status, failed. simpl. rewrite Hfs.
  destruct (ultralytics_export (Ultralytics := lib1) h _ fs1).2 as [v1 | e1];
    destruct (ultralytics_export (Ultralytics := lib2) h _ fs1).2 as [v2 | e2];
    simpl in *; try discriminate Hanswer; [done |].
  by injection Hanswer as ->.
Qed.

End TwoLibraries.

(** The checkpoint is still in place after the export: neither call of
    [tidy_lib] touches it, so the run does not. *)
Lemma run_module_keeps_library_invariants_witness :
  fs_after tidy_run !! "yolo26n.pt" = Some "weights".
Proof.
  apply (run_module_keeps_library_invariants (lib := tidy_lib)
           (fun fs0 : filesystem => fs0 !! "yolo26n.pt" = Some "weights")).
  - intros fs0 Hfs0. simpl. by rewrite load_checkpoint_writes_nothing.
  - intros h fs0 Hfs0. simpl. by rewrite lookup_insert_ne.
  - reflexivity.
Defined.

(** [tidy_lib] answers the export with the package's path and [mute_lib]
    with [None]: the logs differ in that answer and in nothing else. *)
Example mute_lib_answers_none :
  trace (run_module (lib := mute_lib) from_command_line with_checkpoint) !! 1%nat
  = Some (export_call "weights" [("format", PyStr "coreml"); ("imgsz", PyInt 640)],
          Returned PyNone)
  /\ trace tidy_run !! 1%nat
     = Some (export_call "weights" [("format", PyStr "coreml"); ("imgsz", PyInt 640)],
             Returned (PyStr "yolo26n.mlpackage")).
Proof. split; reflexivity. Qed.

Lemma run_module_ignores_export_value_witness :
  calls tidy_run = calls (run_module (lib := mute_lib) from_command_line with_checkpoint)
  /\ fs_after tidy_run
     = fs_after (run_module (lib := mute_lib) from_command_line with_checkpoint)
  /\ result tidy_run
     = result (run_module (lib := mute_lib) from_command_line with_checkpoint)
  /\ exit_status tidy_run
     = exit_status (run_module (lib := mute_lib) from_command_line with_checkpoint).
Proof.
  apply (run_module_ignores_export_value tidy_lib mute_lib
           from_command_line with_checkpoint).
  - reflexivity.
  - intros fs1 h _. split; reflexivity.
Defined.

(** The sample run exits with status 0, so both calls returned. *)
Lemma run_module_succeeds_iff_witness :
  exists fs1 h v,
    ultralytics_YOLO (Ultralytics := tidy_lib) "yolo26n.pt" with_checkpoint
    = (fs1, Returned h)
    /\ (ultralytics_export (Ultralytics := tidy_lib) h
          [("format", PyStr "coreml"); ("imgsz", PyInt 640)] fs1).2 = Returned v.
Proof.
  apply (run_module_succeeds_iff (lib := tidy_lib) from_command_line with_checkpoint).
  reflexivity.
Defined.
